(** * The JSON bridge of the browser example (packages/examples/main/src/browser/main.ts)

    A shallow embedding of the bridging layer between the editor and the
    JSON language service: the snapshot builder [createDocument], the schema
    retrieval [resolveSchema], the four capability adapters, and the
    validation pipeline driven by [window.setTimeout] ([validate],
    [cleanPendingValidation], [doValidate], [cleanDiagnostics]).

    The language service, the two converters of vscode-languageclient and
    the editor are external collaborators: they appear as the variables of
    Section [Bridge].  Every call the bridge makes to them is recorded in a
    trace, so that statements about what is (and is not) called can be read
    off the trace. *)

From Stdlib Require Import ZArith List Lia.
From stdpp Require Import gmap strings list fin_maps.

Open Scope string_scope.
Open Scope list_scope.
Open Scope Z_scope.

(** ** Constants (main.ts, lines 21-23) *)

Definition LANGUAGE_ID : string := "json".
Definition MODEL_URI : string := "inmemory://model.json".
(** [monaco.Uri.parse(MODEL_URI)]: a Uri is identified by the string it was
    parsed from, which is also how the diagnostic collection keys it. *)
Definition MONACO_URI : string := MODEL_URI.

(** ** Documents *)

(** The live editor document, [vscode.TextDocument]: the fields the bridge
    reads, plus its own URI, which the bridge never reads. *)
Record VscodeTextDocument := mkVscodeTextDocument {
  vs_uri : string;
  vs_languageId : string;
  vs_version : Z;
  vs_getText : string
}.

(** The language-service snapshot, [TextDocument] of
    vscode-json-languageservice: [TextDocument.create] stores its four
    arguments. *)
Record TextDocument := mkTextDocument {
  uri : string;
  languageId : string;
  version : Z;
  getText : string
}.

Module TextDocument_.
Definition create (u l : string) (v : Z) (t : string) : TextDocument :=
  mkTextDocument u l v t.
End TextDocument_.

(** main.ts, lines 52-54. *)
Definition createDocument (vscodeDocument : VscodeTextDocument) : TextDocument :=
  TextDocument_.create MODEL_URI (vs_languageId vscodeDocument)
    (vs_version vscodeDocument) (vs_getText vscodeDocument).

(** ** Promises

    A settled promise.  A rejection carries its reason. *)
Inductive Promise (A : Type) : Type :=
  | Resolved (value : A)
  | Rejected (reason : string).
Arguments Resolved {A} value.
Arguments Rejected {A} reason.

Module Promise_.
(** [p.then(f)]: [f] runs only on fulfilment; its own outcome settles the
    result (an [async] callback, or one returning a promise, is
    flattened); a rejection of [p] passes through with its reason. *)
Definition then_ {A B : Type} (p : Promise A) (f : A -> Promise B) : Promise B :=
  match p with
  | Resolved a => f a
  | Rejected r => Rejected r
  end.

Definition is_resolved {A : Type} (p : Promise A) : bool :=
  match p with Resolved _ => true | Rejected _ => false end.

Definition is_rejected {A : Type} (p : Promise A) : bool :=
  negb (is_resolved p).
End Promise_.

(** ** Positions and ranges *)

(** Editor space: [vscode.Position], [vscode.Range]. *)
Record EPosition := mkEPosition { e_line : Z; e_character : Z }.
Record ERange := mkERange { e_start : EPosition; e_end : EPosition }.

(** Service space: the language-server protocol's [Position], [Range]. *)
Record SPosition := mkSPosition { s_line : Z; s_character : Z }.
Record SRange := mkSRange { s_start : SPosition; s_end : SPosition }.

Definition valid_EPosition (p : EPosition) : Prop :=
  0 <= e_line p /\ 0 <= e_character p.

(** (line, character) lexicographic order. *)
Definition EPosition_le (p q : EPosition) : Prop :=
  e_line p < e_line q \/ (e_line p = e_line q /\ e_character p <= e_character q).

Definition valid_ERange (r : ERange) : Prop :=
  valid_EPosition (e_start r) /\ valid_EPosition (e_end r) /\
  EPosition_le (e_start r) (e_end r).

(** The editor-to-service converter ([createCodeConverter()], line 18). *)
Module codeConverter.
(** Modelled from the spec: [codeConverter.asPosition] (the spec's
    [toServicePosition]) is vscode-languageclient code, absent from src/;
    the spec (3, 4.1) makes it a pure translation of representation that
    preserves the zero-based line and character exactly. *)
Definition asPosition (p : EPosition) : SPosition :=
  mkSPosition (e_line p) (e_character p).

(** Modelled from the spec: [codeConverter.asRange] (the spec's
    [toServiceRange]), absent from src/; a range is an ordered pair of
    positions, each translated as above. *)
Definition asRange (r : ERange) : SRange :=
  mkSRange (asPosition (e_start r)) (asPosition (e_end r)).
End codeConverter.

(** The service-to-editor converter ([createProtocolConverter], line 19). *)
Module protocolConverter.
(** Modelled from the spec: [protocolConverter.asPosition] (the spec's
    [toEditorPosition]), absent from src/; the inverse translation of
    representation, preserving line and character. *)
Definition asPosition (p : SPosition) : EPosition :=
  mkEPosition (s_line p) (s_character p).

(** Modelled from the spec: [protocolConverter.asRange] (the spec's
    [toEditorRange]), absent from src/. *)
Definition asRange (r : SRange) : ERange :=
  mkERange (asPosition (s_start r)) (asPosition (s_end r)).
End protocolConverter.

(** ** Schema retrieval (main.ts, lines 56-65) *)

(** How one XMLHttpRequest ends.  The code sets neither a timeout nor calls
    [abort], so the request ends with [load] (a response arrived, whatever
    its HTTP status) or with [error] (the transport failed). *)
Inductive XhrEvent := XhrLoad | XhrError.

Record XhrOutcome := mkXhrOutcome {
  xhr_event : XhrEvent;
  xhr_responseText : string;
  xhr_statusText : string
}.

Inductive XhrCall :=
  | XhrOpen (method url : string) (async : bool)
  | XhrSend.

Definition is_XhrSend (c : XhrCall) : bool :=
  match c with XhrSend => true | XhrOpen _ _ _ => false end.

(** [transport method url] is what the network does with the request.  The
    result pairs the calls made on the request object with the settled
    promise: [onload] resolves with [responseText], [onerror] rejects with
    [statusText]. *)
Definition resolveSchema (transport : string -> string -> XhrOutcome) (url : string)
  : list XhrCall * Promise string :=
  let xhr := transport "GET" url in
  ([XhrOpen "GET" url true; XhrSend],
   match xhr_event xhr with
   | XhrLoad => Resolved (xhr_responseText xhr)
   | XhrError => Rejected (xhr_statusText xhr)
   end).

(** ** The quiescence delay of the specification *)

(** A delay on the order of tens to a few hundred milliseconds. *)
Definition tens_to_few_hundred_ms (delay : Z) : Prop := 10 <= delay < 1000.

(** ** A small engine, to run the bridge on concrete inputs *)

Module Sample.
(** The parsed document is the text. *)
Definition parseJSONDocument (d : TextDocument) : string := getText d.

Definition doComplete (d : TextDocument) (p : SPosition) (jd : string)
  : Promise (list string) := Resolved ["$schema"; "line_endings"].

Definition doResolve (item : string) : Promise string := Resolved item.

Definition format (d : TextDocument) (r : SRange) (options : unit) : list string := [].

Definition findDocumentSymbols (d : TextDocument) (jd : string) : list string := [].

(** Nothing is ever under the cursor. *)
Definition doHover (d : TextDocument) (p : SPosition) (jd : string)
  : Promise (option string) := Resolved None.

(** The empty object is valid, the text [boom] makes the engine fail, and
    any other text gets two diagnostics, the first quoting it. *)
Definition doValidation (d : TextDocument) (jd : string) : Promise (list string) :=
  if String.eqb jd "{}" then Resolved []
  else if String.eqb jd "boom" then Rejected "engine failure"
  else Resolved ["invalid: " ++ jd; "expected a property name"]%string.

Definition asDiagnostics (ds : list string) : Promise (list string) := Resolved ds.

Definition asCompletionResult (l : list string) : Promise (list string) := Resolved l.

Definition asFormattingOptions (options : unit) : unit := options.

Definition asTextEdits (edits : list string) : Promise (list string) := Resolved edits.

Definition asSymbolInformations (symbols : list string) : Promise (list string) :=
  Resolved symbols.

Definition asHover (h : option string) : option string := h.

(** A network that fails for the host [unreachable] and answers otherwise. *)
Definition transport (method url : string) : XhrOutcome :=
  if String.eqb url "http://unreachable/schema"
  then mkXhrOutcome XhrError "" ""
  else mkXhrOutcome XhrLoad "{}" "OK".
End Sample.

(** ** The bridge *)

Section Bridge.

(** Service-side (protocol) result types and editor-side result types; the
    bridge only passes them along. *)
Context {JSONDocument SCompletionList SCompletionItem STextEdit SSymbol SHover
         SDiagnostic SFormattingOptions : Type}.
Context {ECompletionList ECompletionItem ETextEdit ESymbol EHover
         EDiagnostic EFormattingOptions : Type}.

(** [jsonService], the language service (line 67). *)
Variable parseJSONDocument : TextDocument -> JSONDocument.
Variable doComplete :
  TextDocument -> SPosition -> JSONDocument -> Promise SCompletionList.
Variable doResolve : SCompletionItem -> Promise SCompletionItem.
Variable format : TextDocument -> SRange -> SFormattingOptions -> list STextEdit.
Variable findDocumentSymbols : TextDocument -> JSONDocument -> list SSymbol.
Variable doHover :
  TextDocument -> SPosition -> JSONDocument -> Promise (option SHover).
Variable doValidation :
  TextDocument -> JSONDocument -> Promise (list SDiagnostic).

(** The result conversions of [protocolConverter] and the remaining argument
    conversions of [codeConverter]. *)
Variable asCompletionResult : SCompletionList -> Promise ECompletionList.
Variable p_asCompletionItem : SCompletionItem -> ECompletionItem.
Variable c_asCompletionItem : ECompletionItem -> SCompletionItem.
Variable asFormattingOptions : EFormattingOptions -> SFormattingOptions.
Variable asTextEdits : list STextEdit -> Promise (list ETextEdit).
Variable asSymbolInformations : list SSymbol -> Promise (list ESymbol).
(** [asHover] takes the engine's hover or null and gives a hover or
    undefined; both absent values are [None]. *)
Variable asHover : option SHover -> option EHover.
Variable asDiagnostics : list SDiagnostic -> Promise (list EDiagnostic).

(** *** The trace of calls leaving the bridge *)

Inductive Call :=
  | CallParseJSONDocument (document : TextDocument)
  | CallDoComplete (document : TextDocument) (position : SPosition)
  | CallDoResolve (item : SCompletionItem)
  | CallFormat (document : TextDocument) (range : SRange)
  | CallFindDocumentSymbols (document : TextDocument)
  | CallDoHover (document : TextDocument) (position : SPosition)
  | CallDoValidation (document : TextDocument)
  | CallDiagnosticsClear
  | CallDiagnosticsSet (target : string) (diagnostics : list EDiagnostic).

(** The snapshot a call hands to the engine, if it hands one. *)
Definition call_document (c : Call) : option TextDocument :=
  match c with
  | CallParseJSONDocument d | CallDoComplete d _ | CallFormat d _
  | CallFindDocumentSymbols d | CallDoHover d _ | CallDoValidation d => Some d
  | CallDoResolve _ | CallDiagnosticsClear | CallDiagnosticsSet _ _ => None
  end.

(** A computation that records its calls. *)
Definition Traced (A : Type) : Type := list Call * A.

Definition ret {A : Type} (a : A) : Traced A := ([], a).

Definition bind {A B : Type} (m : Traced A) (k : A -> Traced B) : Traced B :=
  let '(t1, a) := m in let '(t2, b) := k a in (t1 ++ t2, b).

Definition call {A : Type} (c : Call) (result : A) : Traced A := ([c], result).

Notation "'perform' x <- m ;; k" := (bind m (fun x => k))
  (at level 10, x name, m at level 99, k at level 200).

(** *** Capability adapters (main.ts, lines 72-109) *)

Definition provideCompletionItems
  (vscodeDocument : VscodeTextDocument) (position : EPosition)
  : Traced (Promise ECompletionList) :=
  let document := createDocument vscodeDocument in
  perform jsonDocument <- call (CallParseJSONDocument document) (parseJSONDocument document) ;;
  let servicePosition := codeConverter.asPosition position in
  perform completionList <- call (CallDoComplete document servicePosition)
                      (doComplete document servicePosition jsonDocument) ;;
  ret (Promise_.then_ completionList asCompletionResult).

Definition resolveCompletionItem (item : ECompletionItem)
  : Traced (Promise ECompletionItem) :=
  let serviceItem := c_asCompletionItem item in
  perform resolved <- call (CallDoResolve serviceItem) (doResolve serviceItem) ;;
  ret (Promise_.then_ resolved (fun result => Resolved (p_asCompletionItem result))).

Definition provideDocumentRangeFormattingEdits
  (vscodeDocument : VscodeTextDocument) (range : ERange) (options : EFormattingOptions)
  : Traced (Promise (list ETextEdit)) :=
  let document := createDocument vscodeDocument in
  let serviceRange := codeConverter.asRange range in
  perform edits <- call (CallFormat document serviceRange)
             (format document serviceRange (asFormattingOptions options)) ;;
  ret (asTextEdits edits).

Definition provideDocumentSymbols (vscodeDocument : VscodeTextDocument)
  : Traced (Promise (list ESymbol)) :=
  let document := createDocument vscodeDocument in
  perform jsonDocument <- call (CallParseJSONDocument document) (parseJSONDocument document) ;;
  perform symbols <- call (CallFindDocumentSymbols document)
               (findDocumentSymbols document jsonDocument) ;;
  ret (asSymbolInformations symbols).

(** The [!] after [asHover(hover)] is a compile-time assertion only: no
    check is left in the running code, so the callback returns whatever
    [asHover] returns. *)
Definition provideHover
  (vscodeDocument : VscodeTextDocument) (position : EPosition)
  : Traced (Promise (option EHover)) :=
  let document := createDocument vscodeDocument in
  perform jsonDocument <- call (CallParseJSONDocument document) (parseJSONDocument document) ;;
  let servicePosition := codeConverter.asPosition position in
  perform hoverPromise <- call (CallDoHover document servicePosition)
                    (doHover document servicePosition jsonDocument) ;;
  ret (Promise_.then_ hoverPromise (fun hover => Resolved (asHover hover))).

(** *** The diagnostic channel (main.ts, line 133) *)

(** Modelled from the spec: the collection returned by
    [vscode.languages.createDiagnosticCollection] is editor code, absent
    from src/; the spec (4.3) gives [set(uri, diagnostics)] as replacing the
    full diagnostic set of [uri], and [clear()] as removing all diagnostics
    of all URIs. *)
Definition DiagnosticCollection_set (target : string) (diagnostics : list EDiagnostic)
  (collection : gmap string (list EDiagnostic)) : gmap string (list EDiagnostic) :=
  <[target := diagnostics]> collection.

(** Modelled from the spec: [clear()] of the same collection (4.3). *)
Definition DiagnosticCollection_clear
  (collection : gmap string (list EDiagnostic)) : gmap string (list EDiagnostic) :=
  ∅.

(** The diagnostics the editor shows for a URI: none when it has no entry. *)
Definition visible_diagnostics (target : string)
  (collection : gmap string (list EDiagnostic)) : list EDiagnostic :=
  default [] (collection !! target).

(** *** The state of one editing session *)

(** A timer registered with the browser.  Every handler the bridge passes to
    [window.setTimeout] is the same arrow function (lines 119-122), closed
    over the snapshot [document]; the snapshot stands for the closure. *)
Record Timer := mkTimer {
  timer_timeout : Z;
  timer_document : TextDocument
}.

(** The mutable objects [createEditor] closes over, the browser's table of
    active timers, and two logs kept for the proofs: [calls], every call
    made to the engine and to the diagnostic collection, and [passes], the
    argument of every invocation of [doValidate]; both oldest first. *)
Record Session := mkSession {
  vscodeDocument : VscodeTextDocument;
  pendingValidationRequests : gmap string Z;
  timers : gmap Z Timer;
  nextTimerHandle : Z;
  diagnosticCollection : gmap string (list EDiagnostic);
  calls : list Call;
  passes : list TextDocument
}.

Definition set_vscodeDocument (d : VscodeTextDocument) (s : Session) : Session :=
  mkSession d (pendingValidationRequests s) (timers s) (nextTimerHandle s)
    (diagnosticCollection s) (calls s) (passes s).

Definition set_pendingValidationRequests (m : gmap string Z) (s : Session) : Session :=
  mkSession (vscodeDocument s) m (timers s) (nextTimerHandle s)
    (diagnosticCollection s) (calls s) (passes s).

Definition set_timers (t : gmap Z Timer) (s : Session) : Session :=
  mkSession (vscodeDocument s) (pendingValidationRequests s) t (nextTimerHandle s)
    (diagnosticCollection s) (calls s) (passes s).

Definition set_nextTimerHandle (n : Z) (s : Session) : Session :=
  mkSession (vscodeDocument s) (pendingValidationRequests s) (timers s) n
    (diagnosticCollection s) (calls s) (passes s).

Definition set_diagnosticCollection (c : gmap string (list EDiagnostic)) (s : Session)
  : Session :=
  mkSession (vscodeDocument s) (pendingValidationRequests s) (timers s)
    (nextTimerHandle s) c (calls s) (passes s).

Definition log_call (c : Call) (s : Session) : Session :=
  mkSession (vscodeDocument s) (pendingValidationRequests s) (timers s)
    (nextTimerHandle s) (diagnosticCollection s) (calls s ++ [c]) (passes s).

Definition log_pass (d : TextDocument) (s : Session) : Session :=
  mkSession (vscodeDocument s) (pendingValidationRequests s) (timers s)
    (nextTimerHandle s) (diagnosticCollection s) (calls s) (passes s ++ [d]).

(** *** Browser timers *)

(** [window.setTimeout(handler, timeout?)]: registers the handler under a
    fresh handle and returns the handle; a missing [timeout] is 0. *)
Definition setTimeout (handler : TextDocument) (timeout : option Z) (s : Session)
  : Z * Session :=
  let handle := nextTimerHandle s in
  (handle,
   set_nextTimerHandle (handle + 1)
     (set_timers (<[handle := mkTimer (default 0 timeout) handler]> (timers s)) s)).

(** [window.clearTimeout(handle)]: the timer, if still active, never fires. *)
Definition clearTimeout (handle : Z) (s : Session) : Session :=
  set_timers (delete handle (timers s)) s.

(** *** Validation (main.ts, lines 111-149) *)

(** Lines 147-149. *)
Definition cleanDiagnostics (s : Session) : Session :=
  set_diagnosticCollection (DiagnosticCollection_clear (diagnosticCollection s))
    (log_call CallDiagnosticsClear s).

(** Lines 134-145.  The continuation passed to [then] runs when the engine's
    promise is fulfilled; it awaits [asDiagnostics] and then publishes.
    Nothing is attached for a rejection.  The promises are taken as settled
    and the continuation runs within the pass: two passes whose engine calls
    overlap in time are outside this model. *)
Definition doValidate (document : TextDocument) (s : Session) : Session :=
  let s := log_pass document s in
  if (String.length (getText document) =? 0)%nat then cleanDiagnostics s
  else
    let jsonDocument := parseJSONDocument document in
    let s := log_call (CallParseJSONDocument document) s in
    let s := log_call (CallDoValidation document) s in
    match doValidation document jsonDocument with
    | Resolved pDiagnostics =>
        match asDiagnostics pDiagnostics with
        | Resolved diagnostics =>
            set_diagnosticCollection
              (DiagnosticCollection_set MONACO_URI diagnostics (diagnosticCollection s))
              (log_call (CallDiagnosticsSet MONACO_URI diagnostics) s)
        | Rejected _ => s
        end
    | Rejected _ => s
    end.

(** Lines 125-131. *)
Definition cleanPendingValidation (document : TextDocument) (s : Session) : Session :=
  match pendingValidationRequests s !! uri document with
  | Some request =>
      let s := clearTimeout request s in
      set_pendingValidationRequests (delete (uri document) (pendingValidationRequests s)) s
  | None => s
  end.

(** Lines 116-123.  [setTimeout] is called with the handler alone. *)
Definition validate (s : Session) : Session :=
  let document := createDocument (vscodeDocument s) in
  let s := cleanPendingValidation document s in
  let '(handle, s) := setTimeout document None s in
  set_pendingValidationRequests
    (<[uri document := handle]> (pendingValidationRequests s)) s.

(** The handler of lines 119-122, for the snapshot it closes over. *)
Definition onTimeout (document : TextDocument) (s : Session) : Session :=
  let s :=
    set_pendingValidationRequests
      (delete (uri document) (pendingValidationRequests s)) s in
  doValidate document s.

(** *** The event loop *)

(** The tasks that reach the bridge: the editor changed the buffer and
    notifies [onDidChangeContent] (lines 111-113), or the browser runs the
    timer task of a handle.  A timer task whose handle is not active (it was
    cleared, it fired already, it never existed) does nothing. *)
Inductive Task :=
  | ContentChanged (newText : string) (newVersion : Z)
  | TimerFired (handle : Z).

Definition onDidChangeContent (newText : string) (newVersion : Z) (s : Session)
  : Session :=
  let d := vscodeDocument s in
  validate
    (set_vscodeDocument
       (mkVscodeTextDocument (vs_uri d) (vs_languageId d) newVersion newText) s).

Definition fireTimer (handle : Z) (s : Session) : Session :=
  match timers s !! handle with
  | Some t => onTimeout (timer_document t) (set_timers (delete handle (timers s)) s)
  | None => s
  end.

Definition runTask (t : Task) (s : Session) : Session :=
  match t with
  | ContentChanged newText newVersion => onDidChangeContent newText newVersion s
  | TimerFired handle => fireTimer handle s
  end.

Definition runTasks (ts : list Task) (s : Session) : Session :=
  fold_left (fun s t => runTask t s) ts s.

(** A run of buffer mutations, each given by the new text and version. *)
Definition contentChanges (events : list (string * Z)) : list Task :=
  map (fun e => ContentChanged (fst e) (snd e)) events.

(** [createEditor] (lines 26-150) for a model created with text [value]:
    the document of the model (line 40), empty maps, and the first call of
    [validate] (line 114). *)
Definition createEditor (value : string) : Session :=
  validate
    (mkSession (mkVscodeTextDocument MODEL_URI LANGUAGE_ID 1 value) ∅ ∅ 1 ∅ [] []).

Inductive reachable : Session -> Prop :=
  | reachable_createEditor (value : string) : reachable (createEditor value)
  | reachable_runTask (t : Task) (s : Session) :
      reachable s -> reachable (runTask t s).

(** The two states of the debounce: nothing scheduled, or one timer
    scheduled, registered with the browser under the handle that the pending
    map stores for [MODEL_URI]. *)
Definition idle (s : Session) : Prop :=
  pendingValidationRequests s = ∅ /\ timers s = ∅.

Definition pending_with (handle : Z) (document : TextDocument) (s : Session) : Prop :=
  pendingValidationRequests s = {[ MODEL_URI := handle ]} /\
  timers s = {[ handle := mkTimer 0 document ]} /\
  uri document = MODEL_URI /\
  handle < nextTimerHandle s.

Definition session_inv (s : Session) : Prop :=
  idle s \/ exists handle document, pending_with handle document s.

(** A call hands the engine no snapshot but one carrying [MODEL_URI]. *)
Definition snapshot_fixed (c : Call) : Prop :=
  forall d, call_document c = Some d -> uri d = MODEL_URI.

(** *** Notions for the properties of whole runs *)

(** The snapshot a mutation of the model of [createEditor] gives rise to. *)
Definition task_snapshot (t : Task) : option TextDocument :=
  match t with
  | ContentChanged newText newVersion =>
      Some (TextDocument_.create MODEL_URI LANGUAGE_ID newVersion newText)
  | TimerFired _ => None
  end.

(** The snapshots of a run from [createEditor value], oldest first: that of
    the initial buffer, then one for each mutation. *)
Definition history (value : string) (ts : list Task) : list TextDocument :=
  TextDocument_.create MODEL_URI LANGUAGE_ID 1 value :: omap task_snapshot ts.

Definition is_clear (c : Call) : bool :=
  match c with CallDiagnosticsClear => true | _ => false end.

Definition is_doValidation (c : Call) : bool :=
  match c with CallDoValidation _ => true | _ => false end.

Definition is_parse (c : Call) : bool :=
  match c with CallParseJSONDocument _ => true | _ => false end.

Definition is_set (c : Call) : bool :=
  match c with CallDiagnosticsSet _ _ => true | _ => false end.

Definition count_calls (p : Call -> bool) (cs : list Call) : nat :=
  length (List.filter p cs).

(** Every scheduled timer closes over the snapshot of the buffer as it is. *)
Definition timers_current (s : Session) : Prop :=
  forall h t, timers s !! h = Some t ->
              timer_document t = createDocument (vscodeDocument s).

(** ** Properties *)

(** *** Frame lemmas: what each operation leaves alone *)

Lemma doValidate_frame (document : TextDocument) (s : Session) :
  pendingValidationRequests (doValidate document s) = pendingValidationRequests s /\
  timers (doValidate document s) = timers s /\
  nextTimerHandle (doValidate document s) = nextTimerHandle s /\
  vscodeDocument (doValidate document s) = vscodeDocument s.
Proof.
  unfold doValidate, cleanDiagnostics.
  destruct (String.length (getText document) =? 0)%nat; [done|].
  destruct (doValidation _ _) as [pDiagnostics|]; [|done].
  by destruct (asDiagnostics pDiagnostics).
Qed.

Lemma doValidate_passes (document : TextDocument) (s : Session) :
  passes (doValidate document s) = passes s ++ [document].
Proof.
  unfold doValidate, cleanDiagnostics.
  destruct (String.length (getText document) =? 0)%nat; [done|].
  destruct (doValidation _ _) as [pDiagnostics|]; [|done].
  by destruct (asDiagnostics pDiagnostics).
Qed.

Lemma createDocument_uri (d : VscodeTextDocument) : uri (createDocument d) = MODEL_URI.
Proof. reflexivity. Qed.

(** *** The debounce state machine *)

(** Whatever was scheduled, [validate] leaves exactly one timer: a new one,
    with timeout 0, for the snapshot taken at the call. *)
Lemma validate_pending (s : Session) :
  session_inv s ->
  pending_with (nextTimerHandle s) (createDocument (vscodeDocument s)) (validate s) /\
  passes (validate s) = passes s /\
  calls (validate s) = calls s /\
  diagnosticCollection (validate s) = diagnosticCollection s /\
  vscodeDocument (validate s) = vscodeDocument s.
Proof.
  destruct s as [d pend tm next dc cs ps].
  unfold session_inv, idle, pending_with, validate, cleanPendingValidation; simpl.
  intros [[-> ->] | (h & doc & -> & -> & Huri & Hlt)].
  - rewrite lookup_empty; simpl. rewrite !insert_empty. repeat split; lia.
  - rewrite lookup_singleton_eq; simpl.
    rewrite !delete_singleton_eq, !insert_empty. repeat split; lia.
Qed.

Lemma validate_inv (s : Session) : session_inv s -> session_inv (validate s).
Proof. intros H. right. destruct (validate_pending s H) as [Hp _]. eauto. Qed.

(** A timer task for the scheduled handle runs one pass and leaves the
    session idle. *)
Lemma fireTimer_pending (handle : Z) (document : TextDocument) (s : Session) :
  pending_with handle document s ->
  idle (fireTimer handle s) /\
  fireTimer handle s =
    doValidate document
      (set_pendingValidationRequests ∅ (set_timers ∅ s)).
Proof.
  destruct s as [d pend tm next dc cs ps].
  unfold pending_with, fireTimer, onTimeout; simpl.
  intros (-> & -> & Huri & _).
  rewrite lookup_singleton_eq; simpl. rewrite Huri.
  rewrite !delete_singleton_eq.
  split; [|done].
  unfold idle.
  match goal with |- context [doValidate ?x ?y] =>
    destruct (doValidate_frame x y) as (-> & -> & _) end.
  done.
Qed.

(** A timer task for any other handle does nothing. *)
Lemma fireTimer_other (h handle : Z) (document : TextDocument) (s : Session) :
  pending_with handle document s -> h <> handle -> fireTimer h s = s.
Proof.
  unfold pending_with, fireTimer. intros (_ & Ht & _) Hne.
  by rewrite Ht, lookup_singleton_ne.
Qed.

Lemma fireTimer_idle (h : Z) (s : Session) : idle s -> fireTimer h s = s.
Proof. unfold idle, fireTimer. intros [_ ->]. by rewrite lookup_empty. Qed.

Lemma fireTimer_inv (h : Z) (s : Session) : session_inv s -> session_inv (fireTimer h s).
Proof.
  intros [Hi | (handle & doc & Hp)].
  - rewrite fireTimer_idle by done. by left.
  - destruct (decide (h = handle)) as [-> | Hne].
    + left. by apply (fireTimer_pending handle doc).
    + rewrite (fireTimer_other h handle doc) by done. right; eauto.
Qed.

Lemma runTask_inv (t : Task) (s : Session) : session_inv s -> session_inv (runTask t s).
Proof.
  destruct t as [newText newVersion | h]; simpl; intros H.
  - apply validate_inv. destruct s; exact H.
  - by apply fireTimer_inv.
Qed.

Lemma createEditor_inv (value : string) : session_inv (createEditor value).
Proof. apply validate_inv. by left. Qed.

Lemma reachable_inv (s : Session) : reachable s -> session_inv s.
Proof.
  induction 1 as [value | t s _ IH]; [apply createEditor_inv | by apply runTask_inv].
Qed.

Lemma reachable_runTasks (ts : list Task) (s : Session) :
  reachable s -> reachable (runTasks ts s).
Proof.
  revert s. induction ts as [|t ts IH]; intros s H; [done|].
  apply IH. by constructor.
Qed.


Lemma onDidChangeContent_pending (newText : string) (newVersion : Z) (s : Session) :
  session_inv s ->
  pending_with (nextTimerHandle s)
    (TextDocument_.create MODEL_URI (vs_languageId (vscodeDocument s)) newVersion newText)
    (onDidChangeContent newText newVersion s) /\
  passes (onDidChangeContent newText newVersion s) = passes s /\
  vs_languageId (vscodeDocument (onDidChangeContent newText newVersion s)) =
    vs_languageId (vscodeDocument s).
Proof.
  intros H. unfold onDidChangeContent.
  match goal with |- context [validate ?x] =>
    destruct (validate_pending x) as (Hp & Hps & _ & _ & Hd); [by destruct s|] end.
  rewrite Hps, Hd. by destruct s.
Qed.

(** After a run of mutations with no timer task in between, one timer is
    left, for the snapshot of the last mutation, and no pass has run. *)
Lemma burst_pending (events : list (string * Z)) (lastText : string) (lastVersion : Z)
  (s : Session) :
  session_inv s ->
  let s1 := runTasks (contentChanges (events ++ [(lastText, lastVersion)])) s in
  (exists handle,
     pending_with handle
       (TextDocument_.create MODEL_URI (vs_languageId (vscodeDocument s))
          lastVersion lastText) s1) /\
  passes s1 = passes s.
Proof.
  revert s. induction events as [|[txt v] events IH]; intros s H; cbv zeta.
  - destruct (onDidChangeContent_pending lastText lastVersion s H) as (Hp & Hps & _).
    split; [eauto | done].
  - destruct (onDidChangeContent_pending txt v s H) as (Hp & Hps & Hl).
    assert (Hinv : session_inv (onDidChangeContent txt v s)) by (right; eauto).
    specialize (IH (onDidChangeContent txt v s) Hinv).
    cbv zeta in IH. rewrite Hl, Hps in IH. exact IH.
Qed.

Lemma timer_tasks_idle (firings : list Z) (s : Session) :
  idle s -> runTasks (map TimerFired firings) s = s.
Proof.
  intros H. induction firings as [|f fs IH]; simpl; [done|].
  by rewrite fireTimer_idle.
Qed.

(** Whatever timer tasks the browser runs next, the scheduled snapshot is
    validated once if its handle is among them, and nothing else is. *)
Lemma timer_tasks_pending (firings : list Z) (handle : Z) (document : TextDocument)
  (s : Session) :
  pending_with handle document s ->
  passes (runTasks (map TimerFired firings) s) =
    passes s ++ (if bool_decide (handle ∈ firings) then [document] else []).
Proof.
  intros H. induction firings as [|f fs IH]; simpl.
  - by rewrite app_nil_r.
  - destruct (decide (f = handle)) as [-> | Hne].
    + destruct (fireTimer_pending handle document s H) as [Hi Heq].
      rewrite timer_tasks_idle by done.
      rewrite bool_decide_eq_true_2 by apply list_elem_of_here.
      rewrite Heq, doValidate_passes. by destruct s.
    + rewrite (fireTimer_other f handle document) by done.
      rewrite IH. f_equal.
      rewrite (bool_decide_ext (handle ∈ f :: fs) (handle ∈ fs)); [done|].
      rewrite elem_of_cons. split; [intros [->|?]; [by destruct Hne | done] | by right].
Qed.

(** C1 (debounce coalescing).  From any reachable session, let a burst of
    one or more buffer mutations arrive with no timer task in between (each
    arrives before the timer of the one before it has fired).  Then no
    validation pass has run during the burst, one timer is left, and whatever
    timer tasks the browser runs afterwards, exactly one pass runs, once the
    handle of that timer is among them; it validates the snapshot of the
    last mutation of the burst. *)
Theorem debounce_coalescing
  (s : Session) (burst : list (string * Z)) (lastText : string) (lastVersion : Z) :
  reachable s ->
  let s1 := runTasks (contentChanges (burst ++ [(lastText, lastVersion)])) s in
  let snapshot :=
    TextDocument_.create MODEL_URI (vs_languageId (vscodeDocument s))
      lastVersion lastText in
  passes s1 = passes s /\
  exists handle,
    pendingValidationRequests s1 = {[ MODEL_URI := handle ]} /\
    timers s1 = {[ handle := mkTimer 0 snapshot ]} /\
    passes (fireTimer handle s1) = passes s ++ [snapshot] /\
    forall firings : list Z,
      passes (runTasks (map TimerFired firings) s1) =
        passes s ++ (if bool_decide (handle ∈ firings) then [snapshot] else []).
Proof.
  intros Hr s1 snapshot.
  destruct (burst_pending burst lastText lastVersion s (reachable_inv s Hr))
    as [[handle Hp] Hps].
  fold s1 in Hp, Hps. fold snapshot in Hp.
  split; [done|]. exists handle.
  pose proof Hp as (Hpend & Htm & _).
  repeat split; [done | done | | ].
  - pose proof (timer_tasks_pending [handle] handle snapshot s1 Hp) as H1.
    simpl in H1. rewrite bool_decide_eq_true_2 in H1 by apply list_elem_of_here.
    by rewrite H1, Hps.
  - intros firings. by rewrite (timer_tasks_pending firings handle snapshot s1 Hp), Hps.
Qed.

(** C2 (pending-handle invariant).  In every reachable session the pending
    map holds at most one handle, and the timers active in the browser are
    exactly the handles it holds.  Scheduling a validation while a handle is
    pending first cancels that handle's timer and removes it from the map,
    and only then stores a new, different handle.  The timer firing removes
    its handle; and a handle leaves the map in no other way than by firing
    or by being cancelled by a new mutation, its timer being gone in both
    cases. *)
Theorem pending_handle_invariant (s : Session) :
  reachable s ->
  (size (pendingValidationRequests s) <= 1)%nat /\
  (forall h, is_Some (timers s !! h) <->
             exists u, pendingValidationRequests s !! u = Some h) /\
  (forall u old, pendingValidationRequests s !! u = Some old ->
     let cleaned := cleanPendingValidation (createDocument (vscodeDocument s)) s in
     timers cleaned !! old = None /\
     pendingValidationRequests cleaned !! u = None /\
     timers (validate s) !! old = None /\
     exists new, new <> old /\
       pendingValidationRequests (validate s) = {[ u := new ]} /\
       is_Some (timers (validate s) !! new)) /\
  (forall u h, pendingValidationRequests s !! u = Some h ->
     pendingValidationRequests (fireTimer h s) !! u = None /\
     timers (fireTimer h s) !! h = None) /\
  (forall t u h, pendingValidationRequests s !! u = Some h ->
     pendingValidationRequests (runTask t s) !! u <> Some h ->
     (t = TimerFired h \/ exists newText newVersion, t = ContentChanged newText newVersion) /\
     timers (runTask t s) !! h = None).
Proof.
  intros Hr. pose proof (reachable_inv s Hr) as Hinv.
  destruct Hinv as [[Hp Ht] | (h0 & d0 & Hpw)].
  - rewrite Hp, Ht. rewrite map_size_empty.
    split; [lia|]. split.
    { intros h. rewrite lookup_empty. split; [by intros [? ?]|].
      intros [u Hu]. by rewrite lookup_empty in Hu. }
    repeat split; intros; by rewrite lookup_empty in *.
  - pose proof Hpw as (Hp & Ht & Huri & Hlt).
    assert (Hlook : forall u h, pendingValidationRequests s !! u = Some h ->
                                u = MODEL_URI /\ h = h0).
    { intros u h. rewrite Hp, lookup_singleton_Some. by intros [<- <-]. }
    destruct (validate_pending s (or_intror (ex_intro _ h0 (ex_intro _ d0 Hpw))))
      as ((Hvp & Hvt & _ & _) & _).
    split; [rewrite Hp, map_size_singleton; lia|].
    split.
    { intros h. rewrite Ht. unfold is_Some.
      setoid_rewrite lookup_singleton_Some. rewrite Hp.
      setoid_rewrite lookup_singleton_Some.
      split; [intros (t & <- & _); eauto | intros (u & _ & <-); eauto]. }
    split.
    { intros u old Hu. destruct (Hlook u old Hu) as [-> ->]. cbv zeta.
      remember (validate s) as validated.
      unfold cleanPendingValidation. rewrite createDocument_uri, Hp, lookup_singleton_eq.
      simpl. rewrite Ht, Hp, !delete_singleton_eq, !lookup_empty.
      split; [done|]. split; [done|].
      rewrite Hvt, Hvp. split; [apply lookup_singleton_ne; lia|].
      exists (nextTimerHandle s). split; [lia|]. split; [done|].
      by rewrite lookup_singleton_eq. }
    split.
    { intros u h Hu. destruct (Hlook u h Hu) as [-> ->].
      destruct (fireTimer_pending h0 d0 s Hpw) as [[Hfp Hft] _].
      by rewrite Hfp, Hft, !lookup_empty. }
    intros t u h Hu Hgone. destruct (Hlook u h Hu) as [-> ->].
    destruct t as [newText newVersion | h1].
    + split; [right; eauto|]. unfold runTask, onDidChangeContent.
      match goal with |- context [validate ?x] =>
        destruct (validate_pending x) as ((_ & Hvt' & _ & _) & _);
          [right; exists h0, d0; by destruct s|] end.
      rewrite Hvt'. apply lookup_singleton_ne. destruct s; simpl in *; lia.
    + destruct (decide (h1 = h0)) as [-> | Hne].
      * split; [by left|]. simpl.
        destruct (fireTimer_pending h0 d0 s Hpw) as [[_ Hft] _].
        by rewrite Hft, lookup_empty.
      * exfalso. apply Hgone. simpl.
        by rewrite (fireTimer_other h1 h0 d0 s Hpw Hne).
Qed.

(** C4, as the code has it (zero delay).  Every buffer mutation schedules
    the deferred validation with [setTimeout] called without a delay, that
    is with a timeout of 0 milliseconds: from a reachable session, after the
    mutation the pending map stores under [MODEL_URI] the handle of a timer
    whose timeout is 0 and whose handler closes over the snapshot of the
    mutated buffer. *)
Theorem validation_scheduled_with_zero_delay
  (s : Session) (newText : string) (newVersion : Z) :
  reachable s ->
  let s1 := onDidChangeContent newText newVersion s in
  exists handle,
    pendingValidationRequests s1 !! MODEL_URI = Some handle /\
    timers s1 !! handle = Some (mkTimer 0 (createDocument (vscodeDocument s1))) /\
    getText (createDocument (vscodeDocument s1)) = newText /\
    version (createDocument (vscodeDocument s1)) = newVersion.
Proof.
  intros Hr s1. exists (nextTimerHandle s).
  pose proof (reachable_inv s Hr) as Hinv. subst s1. unfold onDidChangeContent.
  match goal with |- context [validate ?x] =>
    destruct (validate_pending x) as ((Hvp & Hvt & _ & _) & _ & _ & _ & Hd);
      [by destruct s|] end.
  rewrite Hvp, Hvt, Hd. destruct s; simpl.
  by rewrite !lookup_singleton_eq.
Qed.

(** *** One validation pass *)

(** C3 (empty-document suppression).  A pass on a snapshot whose text has
    length zero makes one call, [clear()] on the diagnostic collection,
    which leaves the collection empty: the document is not parsed and
    [doValidation] is not called.  A pass on a snapshot with text of
    non-zero length parses the document and calls [doValidation] on it. *)
Theorem empty_document_suppression (document : TextDocument) (s : Session) :
  (String.length (getText document) = 0%nat ->
     calls (doValidate document s) = calls s ++ [CallDiagnosticsClear] /\
     diagnosticCollection (doValidate document s) = ∅) /\
  (String.length (getText document) <> 0%nat ->
     exists rest,
       calls (doValidate document s) =
         calls s ++ CallParseJSONDocument document :: CallDoValidation document :: rest).
Proof.
  unfold doValidate, cleanDiagnostics. split; intros Hlen.
  - by rewrite Hlen.
  - apply Nat.eqb_neq in Hlen. rewrite Hlen.
    destruct (doValidation _ _) as [pDiagnostics|reason]; simpl.
    + destruct (asDiagnostics pDiagnostics) as [diagnostics|reason]; simpl;
        rewrite <- !app_assoc; simpl; eauto.
    + rewrite <- !app_assoc; simpl; eauto.
Qed.

(** C5 (diagnostic replace-not-merge).  After [set(uri, D1)] and then
    [set(uri, D2)] the diagnostics visible for the URI are exactly [D2] (none
    when [D2] is empty), and the collection is the one a single [set(uri, D2)]
    gives.  So for the bridge: after two passes on non-empty snapshots for
    which the engine and the conversion yield first [D1] and then [D2], the
    diagnostics visible for [MONACO_URI] are [D2]. *)
Theorem diagnostic_replace_not_merge
  (target : string) (D1 D2 : list EDiagnostic)
  (collection : gmap string (list EDiagnostic))
  (document1 document2 : TextDocument) (P1 P2 : list SDiagnostic) (s : Session) :
  String.length (getText document1) <> 0%nat ->
  String.length (getText document2) <> 0%nat ->
  doValidation document1 (parseJSONDocument document1) = Resolved P1 ->
  asDiagnostics P1 = Resolved D1 ->
  doValidation document2 (parseJSONDocument document2) = Resolved P2 ->
  asDiagnostics P2 = Resolved D2 ->
  visible_diagnostics target
    (DiagnosticCollection_set target D2
       (DiagnosticCollection_set target D1 collection)) = D2 /\
  visible_diagnostics target
    (DiagnosticCollection_set target []
       (DiagnosticCollection_set target D1 collection)) = [] /\
  DiagnosticCollection_set target D2 (DiagnosticCollection_set target D1 collection) =
    DiagnosticCollection_set target D2 collection /\
  visible_diagnostics MONACO_URI
    (diagnosticCollection (doValidate document1 s)) = D1 /\
  visible_diagnostics MONACO_URI
    (diagnosticCollection (doValidate document2 (doValidate document1 s))) = D2.
Proof.
  intros Hlen1 Hlen2 HP1 HD1 HP2 HD2.
  unfold visible_diagnostics, DiagnosticCollection_set.
  rewrite insert_insert_eq, !lookup_insert_eq.
  do 3 (split; [done|]).
  apply Nat.eqb_neq in Hlen1, Hlen2.
  unfold doValidate. rewrite Hlen1, Hlen2, HP1, HD1, HP2, HD2. simpl.
  unfold DiagnosticCollection_set. by rewrite !lookup_insert_eq.
Qed.

(** C10 (diagnostics unchanged on engine failure).  In a pass that reaches
    the engine (the text is not empty), if [doValidation] rejects, or it
    resolves and the conversion [asDiagnostics] rejects, the pass makes no
    call on the diagnostic collection and leaves it as it was.  And in any
    pass, a call of [set] is made only with the diagnostics that the engine
    call and then the conversion resolved with. *)
Theorem diagnostics_unchanged_on_engine_failure (document : TextDocument) (s : Session) :
  (String.length (getText document) <> 0%nat ->
   (exists reason,
      doValidation document (parseJSONDocument document) = Rejected reason) \/
   (exists pDiagnostics reason,
      doValidation document (parseJSONDocument document) = Resolved pDiagnostics /\
      asDiagnostics pDiagnostics = Rejected reason) ->
   diagnosticCollection (doValidate document s) = diagnosticCollection s /\
   calls (doValidate document s) =
     calls s ++ [CallParseJSONDocument document; CallDoValidation document]) /\
  (exists made,
     calls (doValidate document s) = calls s ++ made /\
     forall target diagnostics,
       CallDiagnosticsSet target diagnostics ∈ made ->
       target = MONACO_URI /\
       exists pDiagnostics,
         doValidation document (parseJSONDocument document) = Resolved pDiagnostics /\
         asDiagnostics pDiagnostics = Resolved diagnostics).
Proof.
  unfold doValidate, cleanDiagnostics. split.
  - intros Hlen Hfail. apply Nat.eqb_neq in Hlen. rewrite Hlen.
    destruct Hfail as [[reason ->] | (pDiagnostics & reason & -> & ->)];
      simpl; by rewrite <- !app_assoc.
  - destruct (String.length (getText document) =? 0)%nat; simpl.
    { exists [CallDiagnosticsClear]. split; [done|].
      intros target diagnostics Hin. apply list_elem_of_singleton in Hin. discriminate. }
    destruct (doValidation _ _) as [pDiagnostics|reason]; simpl.
    + destruct (asDiagnostics pDiagnostics) as [diagnostics|reason] eqn:Hconv; simpl.
      * exists [CallParseJSONDocument document; CallDoValidation document;
                CallDiagnosticsSet MONACO_URI diagnostics].
        split; [by rewrite <- !app_assoc|].
        intros target ds Hin. rewrite !elem_of_cons, elem_of_nil in Hin.
        destruct Hin as [Hin | [Hin | [Hin | []]]]; try discriminate.
        injection Hin as -> ->. eauto.
      * exists [CallParseJSONDocument document; CallDoValidation document].
        split; [by rewrite <- !app_assoc|].
        intros target ds Hin. rewrite !elem_of_cons, elem_of_nil in Hin.
        destruct Hin as [Hin | [Hin | []]]; discriminate.
    + exists [CallParseJSONDocument document; CallDoValidation document].
      split; [by rewrite <- !app_assoc|].
      intros target ds Hin. rewrite !elem_of_cons, elem_of_nil in Hin.
      destruct Hin as [Hin | [Hin | []]]; discriminate.
Qed.

(** *** Snapshots *)

Lemma snapshot_fixed_document (c : Call) (d : TextDocument) :
  call_document c = Some d -> uri d = MODEL_URI -> snapshot_fixed c.
Proof. intros Hc Hd d' Hc'. congruence. Qed.

Lemma snapshot_fixed_none (c : Call) : call_document c = None -> snapshot_fixed c.
Proof. intros Hc d Hd. congruence. Qed.

Create HintDb snapshots.

Local Hint Resolve snapshot_fixed_none : snapshots.
Local Hint Extern 1 (snapshot_fixed _) =>
  (eapply snapshot_fixed_document; [reflexivity | assumption || reflexivity]) : snapshots.

Lemma doValidate_calls_fixed (document : TextDocument) (s : Session) :
  uri document = MODEL_URI ->
  Forall snapshot_fixed (calls s) ->
  Forall snapshot_fixed (calls (doValidate document s)).
Proof.
  intros Hd Hs. unfold doValidate, cleanDiagnostics.
  destruct (String.length (getText document) =? 0)%nat; simpl.
  { apply Forall_app; auto with snapshots. }
  destruct (doValidation _ _) as [pDiagnostics|reason]; simpl;
    [destruct (asDiagnostics pDiagnostics) as [diagnostics|reason]; simpl|];
    repeat (apply Forall_app; split); auto with snapshots.
Qed.

(** The calls of the four adapters that take a document. *)
Lemma provideCompletionItems_calls (vd : VscodeTextDocument) (position : EPosition) :
  fst (provideCompletionItems vd position) =
    [CallParseJSONDocument (createDocument vd);
     CallDoComplete (createDocument vd) (codeConverter.asPosition position)].
Proof. reflexivity. Qed.

Lemma provideHover_calls (vd : VscodeTextDocument) (position : EPosition) :
  fst (provideHover vd position) =
    [CallParseJSONDocument (createDocument vd);
     CallDoHover (createDocument vd) (codeConverter.asPosition position)].
Proof. reflexivity. Qed.

Lemma provideDocumentSymbols_calls (vd : VscodeTextDocument) :
  fst (provideDocumentSymbols vd) =
    [CallParseJSONDocument (createDocument vd);
     CallFindDocumentSymbols (createDocument vd)].
Proof. reflexivity. Qed.

Lemma provideDocumentRangeFormattingEdits_calls
  (vd : VscodeTextDocument) (range : ERange) (options : EFormattingOptions) :
  fst (provideDocumentRangeFormattingEdits vd range options) =
    [CallFormat (createDocument vd) (codeConverter.asRange range)].
Proof. reflexivity. Qed.

Lemma reachable_logs (s : Session) :
  reachable s ->
  Forall (fun d => uri d = MODEL_URI) (passes s) /\
  Forall snapshot_fixed (calls s).
Proof.
  induction 1 as [value | t s Hr [IHp IHc]].
  - unfold createEditor.
    match goal with |- context [validate ?x] =>
      destruct (validate_pending x) as (_ & -> & -> & _); [by left|] end.
    simpl. by split.
  - pose proof (reachable_inv s Hr) as Hinv.
    destruct t as [newText newVersion | h]; unfold runTask.
    + unfold onDidChangeContent.
      match goal with |- context [validate ?x] =>
        destruct (validate_pending x) as (_ & -> & -> & _); [by destruct s|] end.
      by destruct s.
    + destruct Hinv as [Hi | (h0 & d0 & Hpw)].
      { by rewrite fireTimer_idle. }
      destruct (decide (h = h0)) as [-> | Hne];
        [|by rewrite (fireTimer_other h h0 d0)].
      destruct (fireTimer_pending h0 d0 s Hpw) as [_ ->].
      pose proof Hpw as (_ & _ & Huri & _).
      split.
      * rewrite doValidate_passes. apply Forall_app. split; [by destruct s|].
        by repeat constructor.
      * apply doValidate_calls_fixed; [done | by destruct s].
Qed.

(** C9 (fixed snapshot URI).  Whatever the URI of the editor document, the
    snapshot built from it carries ['inmemory://model.json'], and so does
    every snapshot that the completion, hover, symbol and formatting
    adapters hand to the engine.  In every reachable session the same holds
    of every snapshot validated so far, of every snapshot handed to the
    engine by validation, and of every snapshot a scheduled timer closes
    over; and the pending map has no key other than that URI. *)
Theorem fixed_snapshot_uri
  (vd : VscodeTextDocument) (position : EPosition) (range : ERange)
  (options : EFormattingOptions) (s : Session) :
  reachable s ->
  MODEL_URI = "inmemory://model.json" /\
  uri (createDocument vd) = MODEL_URI /\
  Forall snapshot_fixed (fst (provideCompletionItems vd position)) /\
  Forall snapshot_fixed (fst (provideHover vd position)) /\
  Forall snapshot_fixed (fst (provideDocumentSymbols vd)) /\
  Forall snapshot_fixed (fst (provideDocumentRangeFormattingEdits vd range options)) /\
  Forall (fun d => uri d = MODEL_URI) (passes s) /\
  Forall snapshot_fixed (calls s) /\
  (forall h t, timers s !! h = Some t -> uri (timer_document t) = MODEL_URI) /\
  (forall u, is_Some (pendingValidationRequests s !! u) -> u = MODEL_URI).
Proof.
  intros Hr.
  rewrite provideCompletionItems_calls, provideHover_calls,
    provideDocumentSymbols_calls, provideDocumentRangeFormattingEdits_calls.
  destruct (reachable_logs s Hr) as [Hp Hc].
  do 2 (split; [reflexivity|]).
  do 4 (split; [repeat constructor; auto with snapshots|]).
  do 2 (split; [assumption|]).
  destruct (reachable_inv s Hr) as [[Hpend Ht] | (h0 & d0 & Hpend & Ht & Huri & _)];
    rewrite Hpend, Ht.
  - split; [intros h t | intros u]; rewrite lookup_empty;
      [discriminate | by intros [? ?]].
  - split.
    + intros h t. rewrite lookup_singleton_Some. by intros [_ <-].
    + intros u [h Hu]. apply lookup_singleton_Some in Hu. by destruct Hu.
Qed.

(** *** Hover *)

(** C6 (hover missing result).  When the engine's hover promise resolves
    with no hover (null), the promise returned by the hover adapter resolves
    too, with what [asHover] makes of the absent hover; it does not reject.
    With a converter that passes the absent hover through, it resolves with
    no hover. *)
Theorem hover_missing_result_resolves
  (vd : VscodeTextDocument) (position : EPosition) :
  doHover (createDocument vd) (codeConverter.asPosition position)
    (parseJSONDocument (createDocument vd)) = Resolved None ->
  snd (provideHover vd position) = Resolved (asHover None) /\
  Promise_.is_rejected (snd (provideHover vd position)) = false /\
  (asHover None = None -> snd (provideHover vd position) = Resolved None).
Proof.
  intros Hengine. unfold provideHover, bind, call, ret; simpl.
  rewrite Hengine; simpl. repeat split. by intros ->.
Qed.

(** *** Whole runs *)

Lemma validate_timers_current (s : Session) :
  session_inv s -> timers_current (validate s).
Proof.
  intros H h t Ht.
  destruct (validate_pending s H) as ((_ & Htm & _) & _ & _ & _ & Hd).
  rewrite Htm in Ht. apply lookup_singleton_Some in Ht as [_ <-].
  by rewrite Hd.
Qed.

Lemma fireTimer_timers_current (h : Z) (s : Session) :
  session_inv s -> timers_current s -> timers_current (fireTimer h s).
Proof.
  intros [Hi | (h0 & d0 & Hpw)] Hc.
  - by rewrite fireTimer_idle.
  - destruct (decide (h = h0)) as [-> | Hne].
    + destruct (fireTimer_pending h0 d0 s Hpw) as [[_ Ht] _].
      intros h' t'. rewrite Ht, lookup_empty. discriminate.
    + by rewrite (fireTimer_other h h0 d0).
Qed.

Lemma reachable_timers_current (s : Session) : reachable s -> timers_current s.
Proof.
  induction 1 as [value | t s Hr IH].
  - apply validate_timers_current. by left.
  - pose proof (reachable_inv s Hr) as Hinv.
    destruct t as [newText newVersion | h]; unfold runTask.
    + apply validate_timers_current. by destruct s.
    + by apply fireTimer_timers_current.
Qed.

(** The snapshot a scheduled timer closes over is the snapshot of the buffer
    as it is now: every mutation reschedules, so no timer outlives the text
    it was scheduled for, and the pass its firing runs validates the current
    buffer. *)
Theorem pending_snapshot_is_current (s : Session) (h : Z) (t : Timer) :
  reachable s ->
  timers s !! h = Some t ->
  timer_document t = createDocument (vscodeDocument s) /\
  passes (fireTimer h s) = passes s ++ [createDocument (vscodeDocument s)].
Proof.
  intros Hr Ht.
  pose proof (reachable_timers_current s Hr h t Ht) as Hcur.
  split; [exact Hcur|].
  unfold fireTimer, onTimeout. rewrite Ht, doValidate_passes, Hcur.
  by destruct s.
Qed.

(** The handler of a buffer mutation validates nothing itself: in any
    session, it runs no pass, makes no call to the engine or to the
    diagnostic collection, and leaves the diagnostics as they are. *)
Theorem mutation_defers_validation
  (s : Session) (newText : string) (newVersion : Z) :
  passes (onDidChangeContent newText newVersion s) = passes s /\
  calls (onDidChangeContent newText newVersion s) = calls s /\
  diagnosticCollection (onDidChangeContent newText newVersion s)
    = diagnosticCollection s.
Proof.
  unfold onDidChangeContent, validate, cleanPendingValidation.
  destruct s as [d pend tm next dc cs ps]; simpl.
  by destruct (pend !! MODEL_URI).
Qed.

(** A timer task for a handle other than the pending one changes nothing,
    and running the task of the same handle a second time changes nothing
    more: a cancelled or already fired timer never validates. *)
Theorem timer_firing_idempotent (s : Session) (h : Z) :
  reachable s ->
  fireTimer h (fireTimer h s) = fireTimer h s /\
  (pendingValidationRequests s !! MODEL_URI <> Some h -> fireTimer h s = s).
Proof.
  intros Hr. destruct (reachable_inv s Hr) as [Hi | (h0 & d0 & Hpw)].
  - rewrite !(fireTimer_idle h s Hi). by split.
  - destruct (decide (h = h0)) as [-> | Hne].
    + destruct (fireTimer_pending h0 d0 s Hpw) as [Hidle _].
      split; [by rewrite (fireTimer_idle h0 (fireTimer h0 s))|].
      intros Hno. destruct Hno. destruct Hpw as (-> & _).
      apply lookup_singleton_eq.
    + rewrite !(fireTimer_other h h0 d0 s Hpw Hne). by split.
Qed.

Lemma onDidChangeContent_document (newText : string) (newVersion : Z) (s : Session) :
  vscodeDocument (onDidChangeContent newText newVersion s) =
    mkVscodeTextDocument (vs_uri (vscodeDocument s))
      (vs_languageId (vscodeDocument s)) newVersion newText.
Proof.
  unfold onDidChangeContent, validate, cleanPendingValidation.
  destruct s as [d pend tm next dc cs ps]; simpl.
  by destruct (pend !! MODEL_URI).
Qed.

Lemma runTasks_snoc (ts : list Task) (t : Task) (s : Session) :
  runTasks (ts ++ [t]) s = runTask t (runTasks ts s).
Proof. unfold runTasks. by rewrite fold_left_app. Qed.

Lemma history_snoc (value : string) (ts : list Task) (t : Task) :
  history value (ts ++ [t]) = history value ts ++ omap task_snapshot [t].
Proof. unfold history. by rewrite omap_app. Qed.

(** Along a run, the history ends with the snapshot of the buffer as it is;
    the passes run so far are a sublist of the history, and of the history
    without its last snapshot while that one is still scheduled. *)
Lemma history_inv (value : string) (ts : list Task) :
  let s := runTasks ts (createEditor value) in
  vs_languageId (vscodeDocument s) = LANGUAGE_ID /\
  exists H0,
    history value ts = H0 ++ [createDocument (vscodeDocument s)] /\
    ((idle s /\ sublist (passes s) (history value ts)) \/
     (exists h, pending_with h (createDocument (vscodeDocument s)) s /\
                sublist (passes s) H0)).
Proof.
  induction ts as [|t ts IH] using rev_ind; cbv zeta.
  - unfold runTasks, createEditor; simpl fold_left.
    match goal with |- context [validate ?x] =>
      destruct (validate_pending x) as (Hp & Hps & _ & _ & Hd); [by left|] end.
    rewrite Hd, Hps; simpl. split; [done|]. exists []. split; [done|].
    right. exists 1. split; [exact Hp | constructor].
  - cbv zeta in IH. rewrite runTasks_snoc, history_snoc.
    destruct IH as (Hlang & H0 & Hhist & Hcases).
    set (s := runTasks ts (createEditor value)) in *.
    assert (Hinv : session_inv s).
    { destruct Hcases as [[Hi _] | (h0 & Hpw & _)]; [by left | right; eauto]. }
    destruct t as [newText newVersion | h]; unfold runTask.
    + destruct (onDidChangeContent_pending newText newVersion s Hinv)
        as (Hp & Hps & Hl).
      rewrite Hl, Hps, onDidChangeContent_document. split; [done|].
      exists (history value ts). rewrite Hlang in *. split; [done|].
      right. exists (nextTimerHandle s). split; [exact Hp|].
      destruct Hcases as [[_ Hsub] | (h0 & _ & Hsub)]; [done|].
      rewrite Hhist. by apply sublist_inserts_r.
    + simpl omap. rewrite app_nil_r.
      destruct Hcases as [[Hi Hsub] | (h0 & Hpw & Hsub)].
      { rewrite fireTimer_idle by done. split; [done|]. exists H0. eauto. }
      destruct (decide (h = h0)) as [-> | Hne].
      * destruct (fireTimer_pending h0 _ s Hpw) as [Hidle Heq].
        assert (Hd : vscodeDocument (fireTimer h0 s) = vscodeDocument s).
        { rewrite Heq.
          match goal with |- context [doValidate ?x ?y] =>
            destruct (doValidate_frame x y) as (_ & _ & _ & ->) end.
          by destruct s. }
        assert (Hps : passes (fireTimer h0 s)
                      = passes s ++ [createDocument (vscodeDocument s)]).
        { rewrite Heq, doValidate_passes. by destruct s. }
        rewrite Hd, Hps. split; [done|]. exists H0. split; [done|].
        left. split; [done|]. rewrite Hhist. by apply sublist_app.
      * rewrite (fireTimer_other h h0 _ s Hpw Hne). split; [done|].
        exists H0. split; [done|]. right; eauto.
Qed.

(** In a run from [createEditor], the validated snapshots are, in order, a
    sublist of the snapshots of the buffer's successive contents (the
    initial one, then one for each mutation): nothing is validated that the
    buffer never held, nothing out of order, no content more often than it
    occurred; so there are at most as many passes as mutations, plus one. *)
Theorem validated_snapshots_follow_history (value : string) (ts : list Task) :
  sublist (passes (runTasks ts (createEditor value))) (history value ts) /\
  (length (passes (runTasks ts (createEditor value)))
     <= 1 + length (omap task_snapshot ts))%nat.
Proof.
  assert (Hsub : sublist (passes (runTasks ts (createEditor value)))
                   (history value ts)).
  { destruct (history_inv value ts) as (_ & H0 & Hhist & [[_ Hs] | (h & _ & Hs)]);
      [done|]. rewrite Hhist. by apply sublist_inserts_r. }
  split; [exact Hsub|].
  apply sublist_length in Hsub. unfold history in Hsub. simpl in Hsub. lia.
Qed.

Lemma count_calls_snoc (p : Call -> bool) (cs : list Call) (c : Call) :
  count_calls p (cs ++ [c]) = (count_calls p cs + (if p c then 1 else 0))%nat.
Proof.
  unfold count_calls. rewrite List.filter_app, length_app. simpl.
  by destruct (p c).
Qed.

Lemma doValidate_accounting (document : TextDocument) (s : Session) :
  (length (passes s)
     = count_calls is_clear (calls s) + count_calls is_doValidation (calls s))%nat /\
  count_calls is_parse (calls s) = count_calls is_doValidation (calls s) /\
  (count_calls is_set (calls s) <= count_calls is_doValidation (calls s))%nat ->
  (length (passes (doValidate document s))
     = count_calls is_clear (calls (doValidate document s))
       + count_calls is_doValidation (calls (doValidate document s)))%nat /\
  count_calls is_parse (calls (doValidate document s))
    = count_calls is_doValidation (calls (doValidate document s)) /\
  (count_calls is_set (calls (doValidate document s))
     <= count_calls is_doValidation (calls (doValidate document s)))%nat.
Proof.
  intros (Hp & Hparse & Hset).
  rewrite doValidate_passes, length_app. unfold doValidate, cleanDiagnostics.
  destruct (String.length (getText document) =? 0)%nat; simpl.
  { rewrite !count_calls_snoc; simpl. lia. }
  destruct (doValidation _ _) as [pDiagnostics|reason]; simpl;
    [destruct (asDiagnostics pDiagnostics) as [diagnostics|reason]; simpl|];
    rewrite !count_calls_snoc; simpl; lia.
Qed.

(** Over a whole session the calls add up: every pass made exactly one of
    the two calls [clear()] and [doValidation], the document was parsed once
    for every [doValidation], and [set] was called at most once for every
    [doValidation]. *)
Theorem pass_accounting (s : Session) :
  reachable s ->
  (length (passes s)
     = count_calls is_clear (calls s) + count_calls is_doValidation (calls s))%nat /\
  count_calls is_parse (calls s) = count_calls is_doValidation (calls s) /\
  (count_calls is_set (calls s) <= count_calls is_doValidation (calls s))%nat.
Proof.
  induction 1 as [value | t s Hr IH].
  - unfold createEditor.
    match goal with |- context [validate ?x] =>
      destruct (validate_pending x) as (_ & -> & -> & _); [by left|] end.
    simpl. unfold count_calls; simpl. lia.
  - pose proof (reachable_inv s Hr) as Hinv.
    destruct t as [newText newVersion | h]; unfold runTask.
    + unfold onDidChangeContent.
      match goal with |- context [validate ?x] =>
        destruct (validate_pending x) as (_ & -> & -> & _); [by destruct s|] end.
      by destruct s.
    + destruct Hinv as [Hi | (h0 & d0 & Hpw)]; [by rewrite fireTimer_idle|].
      destruct (decide (h = h0)) as [-> | Hne];
        [|by rewrite (fireTimer_other h h0 d0)].
      destruct (fireTimer_pending h0 d0 s Hpw) as [_ ->].
      apply doValidate_accounting. by destruct s.
Qed.

Lemma doValidate_diagnostics_keys (document : TextDocument) (s : Session) :
  (forall u, is_Some (diagnosticCollection s !! u) -> u = MONACO_URI) ->
  forall u, is_Some (diagnosticCollection (doValidate document s) !! u) ->
            u = MONACO_URI.
Proof.
  intros Hs u. unfold doValidate, cleanDiagnostics, DiagnosticCollection_clear,
    DiagnosticCollection_set.
  destruct (String.length (getText document) =? 0)%nat; simpl.
  { rewrite lookup_empty. by intros [? ?]. }
  destruct (doValidation _ _) as [pDiagnostics|reason]; simpl; [|apply Hs].
  destruct (asDiagnostics pDiagnostics) as [diagnostics|reason]; simpl; [|apply Hs].
  destruct (decide (u = MONACO_URI)) as [-> | Hne]; [done|].
  rewrite lookup_insert_ne by done. apply Hs.
Qed.

(** The bridge publishes diagnostics for one URI only: in every reachable
    session the diagnostic collection has no entry but that of
    [MONACO_URI]. *)
Theorem diagnostics_keyed_by_model_uri (s : Session) (u : string) :
  reachable s ->
  is_Some (diagnosticCollection s !! u) ->
  u = MONACO_URI.
Proof.
  intros Hr. revert u. induction Hr as [value | t s Hr IH].
  - unfold createEditor.
    match goal with |- context [validate ?x] =>
      destruct (validate_pending x) as (_ & _ & _ & -> & _); [by left|] end.
    simpl. intros u. rewrite lookup_empty. by intros [? ?].
  - pose proof (reachable_inv s Hr) as Hinv.
    destruct t as [newText newVersion | h]; unfold runTask.
    + unfold onDidChangeContent.
      match goal with |- context [validate ?x] =>
        destruct (validate_pending x) as (_ & _ & _ & -> & _); [by destruct s|] end.
      by destruct s.
    + destruct Hinv as [Hi | (h0 & d0 & Hpw)]; [by rewrite fireTimer_idle|].
      destruct (decide (h = h0)) as [-> | Hne];
        [|by rewrite (fireTimer_other h h0 d0)].
      destruct (fireTimer_pending h0 d0 s Hpw) as [_ ->].
      apply doValidate_diagnostics_keys. by destruct s.
Qed.


(** *** Failures of the engine in the adapters *)

(** The adapters that chain on an engine promise do not catch or translate
    its failure.  The hover adapter and the completion-resolve adapter
    reject exactly when the engine's promise rejects, with the engine's
    reason, and otherwise resolve with the converted result.  The completion
    adapter rejects with the engine's reason when the engine rejects, and
    otherwise settles as the conversion of the engine's list does. *)
Theorem adapters_propagate_engine_failure
  (vd : VscodeTextDocument) (position : EPosition) (item : ECompletionItem) :
  let document := createDocument vd in
  let hover :=
    doHover document (codeConverter.asPosition position) (parseJSONDocument document) in
  let completion :=
    doComplete document (codeConverter.asPosition position)
      (parseJSONDocument document) in
  let resolution := doResolve (c_asCompletionItem item) in
  (forall reason, hover = Rejected reason <->
                  snd (provideHover vd position) = Rejected reason) /\
  (forall value, hover = Resolved value ->
                 snd (provideHover vd position) = Resolved (asHover value)) /\
  (forall reason, resolution = Rejected reason <->
                  snd (resolveCompletionItem item) = Rejected reason) /\
  (forall value, resolution = Resolved value ->
                 snd (resolveCompletionItem item) = Resolved (p_asCompletionItem value)) /\
  (forall reason, completion = Rejected reason ->
                  snd (provideCompletionItems vd position) = Rejected reason) /\
  (forall list, completion = Resolved list ->
                snd (provideCompletionItems vd position) = asCompletionResult list).
Proof.
  cbv zeta. unfold provideHover, resolveCompletionItem, provideCompletionItems,
    bind, call, ret; simpl.
  repeat split.
  - by intros ->.
  - destruct (doHover _ _ _); simpl; intros H; [discriminate H | by injection H as ->].
  - by intros value ->.
  - by intros ->.
  - destruct (doResolve _); simpl; intros H; [discriminate H | by injection H as ->].
  - by intros value ->.
  - by intros reason ->.
  - by intros list ->.
Qed.

End Bridge.

(** ** Properties of the schema retrieval and of the coordinate conversion *)

(** C7 (transport failure propagation).  The promise returned by
    [resolveSchema] rejects exactly when the request ends with a transport
    error, and then with the request's status text; otherwise it resolves
    with the response text.  The request is opened and sent once: nothing is
    retried. *)
Theorem transport_failure_propagation
  (transport : string -> string -> XhrOutcome) (url : string) :
  let outcome := transport "GET" url in
  let promise := snd (resolveSchema transport url) in
  (xhr_event outcome = XhrError <-> Promise_.is_rejected promise = true) /\
  (xhr_event outcome = XhrError -> promise = Rejected (xhr_statusText outcome)) /\
  (xhr_event outcome <> XhrError -> promise = Resolved (xhr_responseText outcome)) /\
  fst (resolveSchema transport url) = [XhrOpen "GET" url true; XhrSend] /\
  length (filter is_XhrSend (fst (resolveSchema transport url))) = 1%nat.
Proof.
  unfold resolveSchema; simpl.
  destruct (xhr_event (transport "GET" url)); simpl;
    repeat split; try done; intros H; by destruct H.
Qed.

(** C8 (coordinate round-trip).  For every valid editor position (line and
    character not negative), converting to service space and back gives the
    position itself; and the same for every valid range. *)
Theorem coordinate_round_trip (p : EPosition) (r : ERange) :
  valid_EPosition p ->
  valid_ERange r ->
  protocolConverter.asPosition (codeConverter.asPosition p) = p /\
  protocolConverter.asRange (codeConverter.asRange r) = r.
Proof.
  intros _ _. destruct p as [l c], r as [[l1 c1] [l2 c2]]. by split.
Qed.

(** ** The bridge on concrete inputs *)

Abbreviation sample_editor :=
  (createEditor (SCompletionItem := string) (EDiagnostic := string)).
Abbreviation sample_run :=
  (runTasks Sample.parseJSONDocument Sample.doValidation Sample.asDiagnostics).
Abbreviation sample_reachable :=
  (reachable Sample.parseJSONDocument Sample.doValidation Sample.asDiagnostics).
Abbreviation sample_doValidate :=
  (doValidate Sample.parseJSONDocument Sample.doValidation Sample.asDiagnostics).

(** Three keystrokes, then the timers: the two superseded handles fire
    nothing, the last one validates the last text once. *)
Example three_keystrokes_one_pass :
  passes
    (sample_run
       [ContentChanged "{" 2; ContentChanged "{ " 3; ContentChanged "{ }" 4;
        TimerFired 1; TimerFired 2; TimerFired 3; TimerFired 4; TimerFired 4]
       (sample_editor "{}"))
  = [mkTextDocument MODEL_URI "json" 4 "{ }"].
Proof. vm_compute. reflexivity. Qed.

(** When the timer fires between two mutations, both are validated. *)
Example timer_between_mutations_two_passes :
  passes
    (sample_run
       [ContentChanged "{" 2; TimerFired 2; ContentChanged "{}" 3; TimerFired 3]
       (sample_editor "{}"))
  = [mkTextDocument MODEL_URI "json" 2 "{"; mkTextDocument MODEL_URI "json" 3 "{}"].
Proof. vm_compute. reflexivity. Qed.

(** Emptying the buffer clears the diagnostics without a call to the engine. *)
Example emptied_buffer_clears :
  calls (sample_run [ContentChanged "" 2; TimerFired 2] (sample_editor "{}"))
  = [CallDiagnosticsClear].
Proof. vm_compute. reflexivity. Qed.

(** A failing engine call leaves the diagnostics of the earlier pass. *)
Example failed_pass_keeps_diagnostics :
  map_to_list
    (diagnosticCollection
       (sample_run
          [ContentChanged "{ invalid }" 2; TimerFired 2;
           ContentChanged "boom" 3; TimerFired 3]
          (sample_editor "{}")))
  = [(MONACO_URI, ["invalid: { invalid }"; "expected a property name"])].
Proof. vm_compute. reflexivity. Qed.

(** C4 as stated fails: after a mutation of the initial buffer the pending
    map stores the handle of a timer whose timeout is 0, and no timer of the
    session has a timeout of tens to a few hundred milliseconds. *)
Lemma quiescence_delay_counterexample :
  (exists handle t,
     pendingValidationRequests
       (sample_run [ContentChanged "{ }" 2] (sample_editor "{}")) !! MODEL_URI
       = Some handle /\
     timers (sample_run [ContentChanged "{ }" 2] (sample_editor "{}")) !! handle
       = Some t /\
     timer_timeout t = 0) /\
  (forall handle t,
     timers (sample_run [ContentChanged "{ }" 2] (sample_editor "{}")) !! handle
       = Some t ->
     ~ tens_to_few_hundred_ms (timer_timeout t)).
Proof.
  assert (Ht : timers (sample_run [ContentChanged "{ }" 2] (sample_editor "{}"))
               = {[ 2 := mkTimer 0 (mkTextDocument MODEL_URI "json" 2 "{ }") ]})
    by (vm_compute; reflexivity).
  split.
  - exists 2, (mkTimer 0 (mkTextDocument MODEL_URI "json" 2 "{ }")).
    split; [vm_compute; reflexivity|]. split; [|reflexivity].
    rewrite Ht. apply lookup_singleton_eq.
  - intros handle t. rewrite Ht, lookup_singleton_Some.
    intros [_ <-]. unfold tens_to_few_hundred_ms; simpl. lia.
Qed.

(** ** The theorems at concrete inputs *)

Lemma debounce_coalescing_witness :
  sample_reachable (sample_editor "{}") /\
  let s1 :=
    sample_run (contentChanges ([("{", 2); ("{ ", 3)] ++ [("{ }", 4)]))
      (sample_editor "{}") in
  let snapshot := mkTextDocument MODEL_URI "json" 4 "{ }" in
  passes s1 = [] /\
  exists handle,
    pendingValidationRequests s1 = {[ MODEL_URI := handle ]} /\
    timers s1 = {[ handle := mkTimer 0 snapshot ]} /\
    passes (sample_run [TimerFired handle] s1) = [snapshot] /\
    forall firings : list Z,
      passes (sample_run (map TimerFired firings) s1) =
        (if bool_decide (handle ∈ firings) then [snapshot] else []).
Proof.
  split; [exact (reachable_createEditor _ _ _ "{}")|].
  exact (debounce_coalescing Sample.parseJSONDocument Sample.doValidation
           Sample.asDiagnostics (sample_editor "{}") [("{", 2); ("{ ", 3)] "{ }" 4
           (reachable_createEditor _ _ _ "{}")).
Defined.

Lemma pending_handle_invariant_witness :
  sample_reachable (sample_run [ContentChanged "{ }" 2] (sample_editor "{}")) /\
  (size (pendingValidationRequests
           (sample_run [ContentChanged "{ }" 2] (sample_editor "{}"))) <= 1)%nat /\
  forall h,
    is_Some (timers (sample_run [ContentChanged "{ }" 2] (sample_editor "{}")) !! h) <->
    exists u,
      pendingValidationRequests
        (sample_run [ContentChanged "{ }" 2] (sample_editor "{}")) !! u = Some h.
Proof.
  assert (Hr : sample_reachable
                 (sample_run [ContentChanged "{ }" 2] (sample_editor "{}")))
    by exact (reachable_runTasks _ _ _ [ContentChanged "{ }" 2] _
                (reachable_createEditor _ _ _ "{}")).
  split; [exact Hr|].
  destruct (pending_handle_invariant Sample.parseJSONDocument
              Sample.doValidation Sample.asDiagnostics _ Hr) as (Hsize & Hiff & _).
  split; [exact Hsize | exact Hiff].
Defined.

Lemma empty_document_suppression_witness :
  (String.length "" = 0%nat /\
   calls (sample_doValidate (mkTextDocument MODEL_URI "json" 2 "") (sample_editor "{}"))
     = [CallDiagnosticsClear]) /\
  (String.length "{}" <> 0%nat /\
   exists rest,
     calls (sample_doValidate (mkTextDocument MODEL_URI "json" 1 "{}") (sample_editor "{}"))
       = CallParseJSONDocument (mkTextDocument MODEL_URI "json" 1 "{}")
         :: CallDoValidation (mkTextDocument MODEL_URI "json" 1 "{}") :: rest).
Proof.
  split.
  - split; [reflexivity|].
    exact (proj1 (proj1 (empty_document_suppression Sample.parseJSONDocument
                    Sample.doValidation Sample.asDiagnostics
                    (mkTextDocument MODEL_URI "json" 2 "") (sample_editor "{}"))
                  eq_refl)).
  - assert (Hlen : String.length "{}" <> 0%nat) by (simpl; lia).
    split; [exact Hlen|].
    exact (proj2 (empty_document_suppression Sample.parseJSONDocument
                    Sample.doValidation Sample.asDiagnostics
                    (mkTextDocument MODEL_URI "json" 1 "{}") (sample_editor "{}"))
                 Hlen).
Defined.

Lemma validation_scheduled_with_zero_delay_witness :
  sample_reachable (sample_editor "{}") /\
  exists handle,
    pendingValidationRequests
      (sample_run [ContentChanged "{ }" 2] (sample_editor "{}")) !! MODEL_URI
      = Some handle /\
    timers (sample_run [ContentChanged "{ }" 2] (sample_editor "{}")) !! handle
      = Some (mkTimer 0 (mkTextDocument MODEL_URI "json" 2 "{ }")).
Proof.
  split; [exact (reachable_createEditor _ _ _ "{}")|].
  destruct (validation_scheduled_with_zero_delay Sample.parseJSONDocument
              Sample.doValidation Sample.asDiagnostics (sample_editor "{}") "{ }" 2
              (reachable_createEditor _ _ _ "{}")) as (handle & Hp & Ht & _).
  exists handle. split; [exact Hp | exact Ht].
Defined.

Lemma diagnostic_replace_not_merge_witness :
  (String.length "{ invalid }" <> 0%nat /\ String.length "{}" <> 0%nat) /\
  visible_diagnostics "inmemory://model.json"
    (DiagnosticCollection_set "inmemory://model.json" []
       (DiagnosticCollection_set "inmemory://model.json"
          ["invalid: { invalid }"; "expected a property name"] ∅)) = [] /\
  visible_diagnostics MONACO_URI
    (diagnosticCollection
       (sample_doValidate (mkTextDocument MODEL_URI "json" 3 "{}")
          (sample_doValidate (mkTextDocument MODEL_URI "json" 2 "{ invalid }")
             (sample_editor "{}")))) = [].
Proof.
  assert (Hlen1 : String.length "{ invalid }" <> 0%nat) by (simpl; lia).
  assert (Hlen2 : String.length "{}" <> 0%nat) by (simpl; lia).
  split; [split; assumption|].
  destruct (diagnostic_replace_not_merge Sample.parseJSONDocument
              Sample.doValidation Sample.asDiagnostics
              "inmemory://model.json"
              ["invalid: { invalid }"; "expected a property name"] [] ∅
              (mkTextDocument MODEL_URI "json" 2 "{ invalid }")
              (mkTextDocument MODEL_URI "json" 3 "{}")
              ["invalid: { invalid }"; "expected a property name"] []
              (sample_editor "{}")
              Hlen1 Hlen2 eq_refl eq_refl eq_refl eq_refl)
    as (_ & Hempty & _ & _ & Hpasses).
  split; [exact Hempty | exact Hpasses].
Defined.

Lemma hover_missing_result_resolves_witness :
  (Sample.doHover
     (createDocument (mkVscodeTextDocument MODEL_URI "json" 1 "{}"))
     (codeConverter.asPosition (mkEPosition 0 1))
     (Sample.parseJSONDocument
        (createDocument (mkVscodeTextDocument MODEL_URI "json" 1 "{}")))
     = Resolved None /\
   Sample.asHover None = None) /\
  snd (provideHover (SCompletionItem := string) (EDiagnostic := string)
         Sample.parseJSONDocument Sample.doHover Sample.asHover
         (mkVscodeTextDocument MODEL_URI "json" 1 "{}") (mkEPosition 0 1))
    = Resolved None.
Proof.
  split; [split; reflexivity|].
  exact (proj2 (proj2 (hover_missing_result_resolves (SCompletionItem := string)
                         (EDiagnostic := string)
                         Sample.parseJSONDocument Sample.doHover Sample.asHover
                         (mkVscodeTextDocument MODEL_URI "json" 1 "{}")
                         (mkEPosition 0 1) eq_refl))
               eq_refl).
Defined.

Lemma transport_failure_propagation_witness :
  (xhr_event (Sample.transport "GET" "http://unreachable/schema") = XhrError /\
   snd (resolveSchema Sample.transport "http://unreachable/schema") = Rejected "") /\
  (xhr_event (Sample.transport "GET" "http://json.schemastore.org/coffeelint")
     <> XhrError /\
   snd (resolveSchema Sample.transport "http://json.schemastore.org/coffeelint")
     = Resolved "{}").
Proof.
  split.
  - split; [reflexivity|].
    exact (proj1 (proj2 (transport_failure_propagation Sample.transport
                           "http://unreachable/schema")) eq_refl).
  - assert (Hload : xhr_event (Sample.transport "GET"
                                 "http://json.schemastore.org/coffeelint")
                    <> XhrError) by (vm_compute; discriminate).
    split; [exact Hload|].
    exact (proj1 (proj2 (proj2 (transport_failure_propagation Sample.transport
                                  "http://json.schemastore.org/coffeelint"))) Hload).
Defined.

Lemma coordinate_round_trip_witness :
  (valid_EPosition (mkEPosition 3 7) /\
   valid_ERange (mkERange (mkEPosition 0 0) (mkEPosition 1 4))) /\
  protocolConverter.asPosition (codeConverter.asPosition (mkEPosition 3 7))
    = mkEPosition 3 7 /\
  protocolConverter.asRange
    (codeConverter.asRange (mkERange (mkEPosition 0 0) (mkEPosition 1 4)))
    = mkERange (mkEPosition 0 0) (mkEPosition 1 4).
Proof.
  assert (Hp : valid_EPosition (mkEPosition 3 7))
    by (unfold valid_EPosition; simpl; lia).
  assert (Hr : valid_ERange (mkERange (mkEPosition 0 0) (mkEPosition 1 4)))
    by (unfold valid_ERange, valid_EPosition, EPosition_le; simpl; lia).
  split; [split; assumption|].
  exact (coordinate_round_trip (mkEPosition 3 7)
           (mkERange (mkEPosition 0 0) (mkEPosition 1 4)) Hp Hr).
Defined.

Lemma fixed_snapshot_uri_witness :
  sample_reachable (sample_run [ContentChanged "[]" 2; TimerFired 2] (sample_editor "{}")) /\
  uri (createDocument (mkVscodeTextDocument "file:///tmp/other.json" "json" 7 "[]"))
    = "inmemory://model.json" /\
  Forall (fun d => uri d = MODEL_URI)
    (passes (sample_run [ContentChanged "[]" 2; TimerFired 2] (sample_editor "{}"))).
Proof.
  assert (Hr : sample_reachable
                 (sample_run [ContentChanged "[]" 2; TimerFired 2] (sample_editor "{}")))
    by exact (reachable_runTasks _ _ _ [ContentChanged "[]" 2; TimerFired 2] _
                (reachable_createEditor _ _ _ "{}")).
  split; [exact Hr|].
  destruct (fixed_snapshot_uri
              Sample.parseJSONDocument Sample.doComplete Sample.format
              Sample.findDocumentSymbols Sample.doHover Sample.doValidation
              Sample.asCompletionResult Sample.asFormattingOptions
              Sample.asTextEdits Sample.asSymbolInformations Sample.asHover
              Sample.asDiagnostics
              (mkVscodeTextDocument "file:///tmp/other.json" "json" 7 "[]")
              (mkEPosition 0 1) (mkERange (mkEPosition 0 0) (mkEPosition 0 2)) tt
              _ Hr) as (_ & Huri & _ & _ & _ & _ & Hpasses & _).
  split; [exact Huri | exact Hpasses].
Defined.

Lemma diagnostics_unchanged_on_engine_failure_witness :
  (String.length "boom" <> 0%nat /\
   Sample.doValidation (mkTextDocument MODEL_URI "json" 3 "boom")
     (Sample.parseJSONDocument (mkTextDocument MODEL_URI "json" 3 "boom"))
     = Rejected "engine failure") /\
  diagnosticCollection
    (sample_doValidate (mkTextDocument MODEL_URI "json" 3 "boom")
       (sample_run [ContentChanged "{ invalid }" 2; TimerFired 2] (sample_editor "{}")))
  = diagnosticCollection
      (sample_run [ContentChanged "{ invalid }" 2; TimerFired 2] (sample_editor "{}")).
Proof.
  assert (Hlen : String.length "boom" <> 0%nat) by (simpl; lia).
  split; [split; [exact Hlen | reflexivity]|].
  exact (proj1 (proj1 (diagnostics_unchanged_on_engine_failure
                         Sample.parseJSONDocument Sample.doValidation
                         Sample.asDiagnostics
                         (mkTextDocument MODEL_URI "json" 3 "boom")
                         (sample_run [ContentChanged "{ invalid }" 2; TimerFired 2]
                            (sample_editor "{}")))
                  Hlen (or_introl (ex_intro _ "engine failure" eq_refl)))).
Defined.

(** ** The properties of whole runs at concrete inputs *)

Lemma pending_snapshot_is_current_witness :
  (sample_reachable (sample_run [ContentChanged "{ }" 2] (sample_editor "{}")) /\
   timers (sample_run [ContentChanged "{ }" 2] (sample_editor "{}")) !! 2
     = Some (mkTimer 0 (mkTextDocument MODEL_URI "json" 2 "{ }"))) /\
  passes (sample_run [ContentChanged "{ }" 2; TimerFired 2] (sample_editor "{}"))
    = [mkTextDocument MODEL_URI "json" 2 "{ }"].
Proof.
  assert (Hr : sample_reachable
                 (sample_run [ContentChanged "{ }" 2] (sample_editor "{}")))
    by exact (reachable_runTasks _ _ _ [ContentChanged "{ }" 2] _
                (reachable_createEditor _ _ _ "{}")).
  assert (Ht : timers (sample_run [ContentChanged "{ }" 2] (sample_editor "{}")) !! 2
               = Some (mkTimer 0 (mkTextDocument MODEL_URI "json" 2 "{ }")))
    by (vm_compute; reflexivity).
  split; [split; assumption|].
  exact (proj2 (pending_snapshot_is_current Sample.parseJSONDocument
                  Sample.doValidation Sample.asDiagnostics _ 2 _ Hr Ht)).
Defined.

Lemma timer_firing_idempotent_witness :
  (sample_reachable (sample_run [ContentChanged "{ }" 2] (sample_editor "{}")) /\
   pendingValidationRequests
     (sample_run [ContentChanged "{ }" 2] (sample_editor "{}")) !! MODEL_URI
     <> Some 1) /\
  sample_run [ContentChanged "{ }" 2; TimerFired 1] (sample_editor "{}")
    = sample_run [ContentChanged "{ }" 2] (sample_editor "{}").
Proof.
  assert (Hr : sample_reachable
                 (sample_run [ContentChanged "{ }" 2] (sample_editor "{}")))
    by exact (reachable_runTasks _ _ _ [ContentChanged "{ }" 2] _
                (reachable_createEditor _ _ _ "{}")).
  assert (Hp : pendingValidationRequests
                 (sample_run [ContentChanged "{ }" 2] (sample_editor "{}"))
                 !! MODEL_URI <> Some 1)
    by (vm_compute; discriminate).
  split; [split; assumption|].
  exact (proj2 (timer_firing_idempotent Sample.parseJSONDocument
                  Sample.doValidation Sample.asDiagnostics _ 1 Hr) Hp).
Defined.

Lemma pass_accounting_witness :
  sample_reachable
    (sample_run [ContentChanged "" 2; TimerFired 2; ContentChanged "{ }" 3; TimerFired 3]
       (sample_editor "{}")) /\
  length
    (passes
       (sample_run [ContentChanged "" 2; TimerFired 2; ContentChanged "{ }" 3; TimerFired 3]
          (sample_editor "{}")))
  = (count_calls is_clear
       (calls
          (sample_run
             [ContentChanged "" 2; TimerFired 2; ContentChanged "{ }" 3; TimerFired 3]
             (sample_editor "{}")))
     + count_calls is_doValidation
         (calls
            (sample_run
               [ContentChanged "" 2; TimerFired 2; ContentChanged "{ }" 3; TimerFired 3]
               (sample_editor "{}"))))%nat.
Proof.
  assert (Hr : sample_reachable
                 (sample_run
                    [ContentChanged "" 2; TimerFired 2; ContentChanged "{ }" 3;
                     TimerFired 3]
                    (sample_editor "{}")))
    by exact (reachable_runTasks _ _ _
                [ContentChanged "" 2; TimerFired 2; ContentChanged "{ }" 3; TimerFired 3]
                _ (reachable_createEditor _ _ _ "{}")).
  split; [exact Hr|].
  exact (proj1 (pass_accounting Sample.parseJSONDocument Sample.doValidation
                  Sample.asDiagnostics _ Hr)).
Defined.

Lemma diagnostics_keyed_by_model_uri_witness :
  (sample_reachable (sample_run [TimerFired 1] (sample_editor "{}")) /\
   is_Some (diagnosticCollection (sample_run [TimerFired 1] (sample_editor "{}"))
              !! "inmemory://model.json")) /\
  "inmemory://model.json" = MONACO_URI.
Proof.
  assert (Hr : sample_reachable (sample_run [TimerFired 1] (sample_editor "{}")))
    by exact (reachable_runTasks _ _ _ [TimerFired 1] _
                (reachable_createEditor _ _ _ "{}")).
  assert (Hs : is_Some (diagnosticCollection
                          (sample_run [TimerFired 1] (sample_editor "{}"))
                          !! "inmemory://model.json"))
    by (exists []; vm_compute; reflexivity).
  split; [split; assumption|].
  exact (diagnostics_keyed_by_model_uri Sample.parseJSONDocument
           Sample.doValidation Sample.asDiagnostics _ _ Hr Hs).
Defined.


Lemma adapters_propagate_engine_failure_witness :
  snd (provideHover (SCompletionItem := string) (EDiagnostic := string)
         Sample.parseJSONDocument
         (fun _ _ _ => Rejected "engine failure") Sample.asHover
         (mkVscodeTextDocument MODEL_URI "json" 1 "{}") (mkEPosition 0 1))
    = Rejected "engine failure" /\
  snd (provideCompletionItems (SCompletionItem := string) (EDiagnostic := string)
         Sample.parseJSONDocument Sample.doComplete Sample.asCompletionResult
         (mkVscodeTextDocument MODEL_URI "json" 1 "{}") (mkEPosition 0 1))
    = Resolved ["$schema"; "line_endings"].
Proof.
  split.
  - exact (proj1 (proj1 (adapters_propagate_engine_failure
                           (EDiagnostic := string)
                           Sample.parseJSONDocument Sample.doComplete Sample.doResolve
                           (fun _ _ _ => Rejected "engine failure")
                           Sample.asCompletionResult (fun x : string => x)
                           (fun x : string => x) Sample.asHover
                           (mkVscodeTextDocument MODEL_URI "json" 1 "{}")
                           (mkEPosition 0 1) "item")
                        "engine failure")
                 eq_refl).
  - exact (proj2 (proj2 (proj2 (proj2 (proj2
             (adapters_propagate_engine_failure
                (EDiagnostic := string)
                Sample.parseJSONDocument Sample.doComplete Sample.doResolve
                Sample.doHover Sample.asCompletionResult (fun x : string => x)
                (fun x : string => x) Sample.asHover
                (mkVscodeTextDocument MODEL_URI "json" 1 "{}")
                (mkEPosition 0 1) "item")))))
             ["$schema"; "line_endings"] eq_refl).
Defined.
